(** * JSONPlaceholder API client: a shallow embedding of [src/api-client.ts]

    The client class [JsonPlaceholderApiClient] holds a base URL and a timeout,
    has one private generic executor [makeRequest] and one public method per
    endpoint.  The only effect of the code is the call [axios(config)].

    The embedding threads a [World] through every method: the client object
    ([this]), the state of the remote service, and the list of request
    configurations handed to axios so far.  Methods are computations in a
    state-and-exception monad [M]; [await] is sequencing. *)

From Stdlib Require Import ZArith List String Ascii Bool Lia.
From Stdlib Require Import DecimalString DecimalZ.
Import ListNotations.
Open Scope string_scope.
Open Scope Z_scope.

Set Warnings "-register-all".

(** ** JavaScript values *)

Module Js.

(** Runtime values of type [any].  Numbers are the integers (the spec types
    every id as an integer); NaN and fractions are not represented. *)
Inductive Value : Type :=
| Undefined
| Null
| Bool (b : bool)
| Number (n : Z)
| Str (s : string)
| Object (fields : list (string * Value)).

(** ECMAScript ToBoolean: what [!v] and [v && w] test. *)
Definition ToBoolean (v : Value) : bool :=
  match v with
  | Undefined | Null => false
  | Bool b => b
  | Number n => negb (n =? 0)
  | Str s => negb (s =? "")%string
  | Object _ => true
  end.

(** [`${n}`] for an integer [n]: its decimal numeral, with a leading minus
    sign for negatives (JavaScript switches to exponent notation from 1e21
    on, which is outside the ids the client is used with). *)
Definition Number_toString (n : Z) : string :=
  NilEmpty.string_of_int (Z.to_int n).

(** Truthiness of a [string | undefined] property, as tested by [!s]. *)
Definition truthy_string (s : option string) : bool :=
  match s with
  | None => false
  | Some s => negb (s =? "")%string
  end.

(** An optional property of an object literal: present only when set. *)
Definition prop (k : string) (v : option Value) : list (string * Value) :=
  match v with
  | None => []
  | Some v => [(k, v)]
  end.

End Js.

(** ** The axios interface used by the client *)

Inductive Method : Type := GET | POST | PUT | PATCH | DELETE.

(** The [config] object literal built in [makeRequest].  [method], [url] and
    [timeout] are always present; [data] and [params] are spread in
    conditionally, so they are optional properties: [None] is "the object has
    no such property". *)
Record AxiosRequestConfig : Type := mkConfig {
  cfg_method : Method;
  cfg_url : string;
  cfg_timeout : Z;
  cfg_data : option Js.Value;
  cfg_params : option Js.Value
}.

(** What [await axios(config)] resolves to.  The client reads [data], [status]
    and [statusText]; axios also delivers headers and the originating
    configuration. *)
Record AxiosResponse : Type := mkResponse {
  res_data : Js.Value;
  res_status : Z;
  res_statusText : string;
  res_headers : list (string * string);
  res_config : AxiosRequestConfig
}.

(** A thrown error object, as the [catch] clause inspects it: [error.message],
    [error.code], [error.response] and its string conversion (which for an
    Error is built from [name] and [message]).  A missing property reads as
    [undefined], here [None]. *)
Record ErrorObject : Type := mkError {
  err_name : string;
  err_message : string;
  err_code : option string;
  err_response : option AxiosResponse
}.

(** [new Error(msg)] *)
Definition new_Error (msg : string) : ErrorObject :=
  {| err_name := "Error"; err_message := msg;
     err_code := None; err_response := None |}.

(** [Error.prototype.toString], used by [`${error}`]. *)
Definition Error_toString (e : ErrorObject) : string :=
  if (err_name e =? "")%string then err_message e
  else if (err_message e =? "")%string then err_name e
  else err_name e ++ ": " ++ err_message e.

(** [error.code === 'ECONNABORTED'] *)
Definition code_is_ECONNABORTED (e : ErrorObject) : bool :=
  match err_code e with
  | Some c => (c =? "ECONNABORTED")%string
  | None => false
  end.

(** ** Types of [src/types/index.ts] *)

(** [ApiResponse<T>]: the envelope.  The payload type [T] is erased at run
    time, so [data] is a JavaScript value. *)
Record ApiResponse : Type := mkApiResponse {
  data : Js.Value;
  status : Z;
  statusText : string
}.

(** [CreatePostRequest].  The declared types are [string], [string] and
    [number]; at run time a property can be missing ([undefined] or [null]),
    which is [None]. *)
Record CreatePostRequest : Type := mkCreatePost {
  cp_title : option string;
  cp_body : option string;
  cp_userId : option Z
}.

(** [UpdatePostRequest] (and [Partial<UpdatePostRequest>], which is the same
    type since every property is already optional). *)
Record UpdatePostRequest : Type := mkUpdatePost {
  up_title : option string;
  up_body : option string;
  up_userId : option Z
}.

(** The filter objects of the list endpoints. *)
Record CommentFilter : Type := mkCommentFilter { cf_postId : option Z }.
Record PhotoFilter : Type := mkPhotoFilter { pf_albumId : option Z }.
Record TodoFilter : Type := mkTodoFilter {
  tf_userId : option Z;
  tf_completed : option bool
}.

(** The objects above as values of type [any], which is how [makeRequest]
    receives them. *)
Definition CreatePostRequest_value (p : CreatePostRequest) : Js.Value :=
  Js.Object (Js.prop "title" (option_map Js.Str (cp_title p))
          ++ Js.prop "body" (option_map Js.Str (cp_body p))
          ++ Js.prop "userId" (option_map Js.Number (cp_userId p))).

Definition UpdatePostRequest_value (p : UpdatePostRequest) : Js.Value :=
  Js.Object (Js.prop "title" (option_map Js.Str (up_title p))
          ++ Js.prop "body" (option_map Js.Str (up_body p))
          ++ Js.prop "userId" (option_map Js.Number (up_userId p))).

Definition CommentFilter_value (f : CommentFilter) : Js.Value :=
  Js.Object (Js.prop "postId" (option_map Js.Number (cf_postId f))).

Definition PhotoFilter_value (f : PhotoFilter) : Js.Value :=
  Js.Object (Js.prop "albumId" (option_map Js.Number (pf_albumId f))).

Definition TodoFilter_value (f : TodoFilter) : Js.Value :=
  Js.Object (Js.prop "userId" (option_map Js.Number (tf_userId f))
          ++ Js.prop "completed" (option_map Js.Bool (tf_completed f))).

(** An optional argument [params?: F]: omitted is [undefined]. *)
Definition optional {F : Type} (to_value : F -> Js.Value) (a : option F) : Js.Value :=
  match a with
  | None => Js.Undefined
  | Some f => to_value f
  end.

(** ** The client object *)

Record JsonPlaceholderApiClient : Type := mkClient {
  baseUrl : string;
  timeout : Z
}.

(** The constructor with its default arguments. *)
Definition constructor (baseUrl : option string) (timeout : option Z)
  : JsonPlaceholderApiClient :=
  {| baseUrl := match baseUrl with
                | Some u => u
                | None => "https://jsonplaceholder.typicode.com"
                end;
     timeout := match timeout with
                | Some t => t
                | None => 10000
                end |}.

(** How a method call ends: it returns a value or throws an error object
    (an [async] method resolves or rejects its promise). *)
Inductive Outcome (A : Type) : Type :=
| Returned (a : A)
| Thrown (e : ErrorObject).
Arguments Returned {A} a.
Arguments Thrown {A} e.

(** ** Worlds and the monad of client methods *)

Section Client.

(** The remote service: given a request configuration and its current state
    it either resolves with a response or rejects with an error object, and
    moves to a new state.  Nothing is assumed about it. *)
Context {Remote : Type}.
Variable transport :
  AxiosRequestConfig -> Remote -> (AxiosResponse + ErrorObject) * Remote.

Record World : Type := mkWorld {
  this : JsonPlaceholderApiClient;
  remote : Remote;
  wire : list AxiosRequestConfig
}.

Definition M (A : Type) : Type := World -> Outcome A * World.

Definition ret {A : Type} (a : A) : M A := fun w => (Returned a, w).

Definition throw {A : Type} (e : ErrorObject) : M A := fun w => (Thrown e, w).

Definition bind {A B : Type} (m : M A) (k : A -> M B) : M B :=
  fun w =>
    match m w with
    | (Returned a, w') => k a w'
    | (Thrown e, w') => (Thrown e, w')
    end.

(** [try { body } catch (error) { handler }] *)
Definition try_catch {A : Type} (body : M A) (handler : ErrorObject -> M A) : M A :=
  fun w =>
    match body w with
    | (Returned a, w') => (Returned a, w')
    | (Thrown e, w') => handler e w'
    end.

(** Reading [this]; no method assigns to it. *)
Definition get_this : M JsonPlaceholderApiClient := fun w => (Returned (this w), w).

(** [await axios(config)]: the configuration goes on the wire, the remote
    service answers; a rejection is thrown. *)
Definition axios (config : AxiosRequestConfig) : M AxiosResponse :=
  fun w =>
    let (answer, remote') := transport config (remote w) in
    let w' := {| this := this w; remote := remote'; wire := wire w ++ [config] |} in
    match answer with
    | inl response => (Returned response, w')
    | inr error => (Thrown error, w')
    end.

Notation "x <- m ;; k" := (bind m (fun x => k))
  (at level 100, m at next level, right associativity).

(** [...(v && { v })]: the property is spread into the literal when [v] is
    truthy; a falsy [v] spreads nothing. *)
Definition spread_if (v : Js.Value) : option Js.Value :=
  if Js.ToBoolean v then Some v else None.

(** *** The generic request executor *)

(** The object literal [config] of [makeRequest]. *)
Definition config_literal (self : JsonPlaceholderApiClient) (method : Method)
    (endpoint : string) (data params : Js.Value) : AxiosRequestConfig :=
  {| cfg_method := method;
     cfg_url := baseUrl self ++ endpoint;
     cfg_timeout := timeout self;
     cfg_data := spread_if data;
     cfg_params := spread_if params |}.

Definition makeRequest (method : Method) (endpoint : string)
    (data params : Js.Value) : M ApiResponse :=
  try_catch
    (self <- get_this ;;
     let config := config_literal self method endpoint data params in
     response <- axios config ;;
     ret {| data := res_data response;
            status := res_status response;
            statusText := res_statusText response |})
    (fun error =>
       match err_response error with
       | Some r =>
           throw (new_Error ("API request failed: " ++ err_message error
                             ++ " - Status: " ++ Js.Number_toString (res_status r)))
       | None =>
           if code_is_ECONNABORTED error then
             self <- get_this ;;
             throw (new_Error ("Request timed out after "
                               ++ Js.Number_toString (timeout self) ++ "ms"))
           else
             throw (new_Error ("Unexpected error: " ++ Error_toString error))
       end).

(** *** Posts *)

Definition getPosts : M ApiResponse :=
  makeRequest GET "/posts" Js.Undefined Js.Undefined.

Definition getPost (id : Z) : M ApiResponse :=
  if id <=? 0 then throw (new_Error "Post ID must be positive")
  else makeRequest GET ("/posts/" ++ Js.Number_toString id) Js.Undefined Js.Undefined.

Definition getPostComments (postId : Z) : M ApiResponse :=
  makeRequest GET ("/posts/" ++ Js.Number_toString postId ++ "/comments")
    Js.Undefined Js.Undefined.

Definition createPost (postData : CreatePostRequest) : M ApiResponse :=
  if negb (Js.truthy_string (cp_title postData))
     || negb (Js.truthy_string (cp_body postData))
  then throw (new_Error "Title and body are required")
  else makeRequest POST "/posts" (CreatePostRequest_value postData) Js.Undefined.

Definition updatePost (id : Z) (postData : UpdatePostRequest) : M ApiResponse :=
  makeRequest PUT ("/posts/" ++ Js.Number_toString id)
    (UpdatePostRequest_value postData) Js.Undefined.

Definition patchPost (id : Z) (postData : UpdatePostRequest) : M ApiResponse :=
  makeRequest PATCH ("/posts/" ++ Js.Number_toString id)
    (UpdatePostRequest_value postData) Js.Undefined.

Definition deletePost (id : Z) : M ApiResponse :=
  makeRequest DELETE ("/posts/" ++ Js.Number_toString id) Js.Undefined Js.Undefined.

(** *** Comments *)

Definition getComments (params : option CommentFilter) : M ApiResponse :=
  makeRequest GET "/comments" Js.Undefined (optional CommentFilter_value params).

Definition getComment (id : Z) : M ApiResponse :=
  makeRequest GET ("/comments/" ++ Js.Number_toString id) Js.Undefined Js.Undefined.

(** *** Albums *)

Definition getAlbums : M ApiResponse :=
  makeRequest GET "/albums" Js.Undefined Js.Undefined.

Definition getAlbum (id : Z) : M ApiResponse :=
  makeRequest GET ("/albums/" ++ Js.Number_toString id) Js.Undefined Js.Undefined.

Definition getAlbumPhotos (albumId : Z) : M ApiResponse :=
  makeRequest GET ("/albums/" ++ Js.Number_toString albumId ++ "/photos")
    Js.Undefined Js.Undefined.

(** *** Photos *)

Definition getPhotos (params : option PhotoFilter) : M ApiResponse :=
  makeRequest GET "/photos" Js.Undefined (optional PhotoFilter_value params).

Definition getPhoto (id : Z) : M ApiResponse :=
  makeRequest GET ("/photos/" ++ Js.Number_toString id) Js.Undefined Js.Undefined.

(** *** Todos *)

Definition getTodos (params : option TodoFilter) : M ApiResponse :=
  makeRequest GET "/todos" Js.Undefined (optional TodoFilter_value params).

Definition getTodo (id : Z) : M ApiResponse :=
  makeRequest GET ("/todos/" ++ Js.Number_toString id) Js.Undefined Js.Undefined.

(** *** Users *)

Definition getUsers : M ApiResponse :=
  makeRequest GET "/users" Js.Undefined Js.Undefined.

Definition getUser (id : Z) : M ApiResponse :=
  makeRequest GET ("/users/" ++ Js.Number_toString id) Js.Undefined Js.Undefined.

Definition getUserPosts (userId : Z) : M ApiResponse :=
  makeRequest GET ("/users/" ++ Js.Number_toString userId ++ "/posts")
    Js.Undefined Js.Undefined.

Definition getUserTodos (userId : Z) : M ApiResponse :=
  makeRequest GET ("/users/" ++ Js.Number_toString userId ++ "/todos")
    Js.Undefined Js.Undefined.

Definition getUserAlbums (userId : Z) : M ApiResponse :=
  makeRequest GET ("/users/" ++ Js.Number_toString userId ++ "/albums")
    Js.Undefined Js.Undefined.

(** *** The public surface as a data type

    One constructor per public method with its arguments, so that a statement
    can range over every call a user of the class can make. *)

Inductive Call : Type :=
| GetPosts
| GetPost (id : Z)
| GetPostComments (postId : Z)
| CreatePost (postData : CreatePostRequest)
| UpdatePost (id : Z) (postData : UpdatePostRequest)
| PatchPost (id : Z) (postData : UpdatePostRequest)
| DeletePost (id : Z)
| GetComments (params : option CommentFilter)
| GetComment (id : Z)
| GetAlbums
| GetAlbum (id : Z)
| GetAlbumPhotos (albumId : Z)
| GetPhotos (params : option PhotoFilter)
| GetPhoto (id : Z)
| GetTodos (params : option TodoFilter)
| GetTodo (id : Z)
| GetUsers
| GetUser (id : Z)
| GetUserPosts (userId : Z)
| GetUserTodos (userId : Z)
| GetUserAlbums (userId : Z).

Definition invoke (c : Call) : M ApiResponse :=
  match c with
  | GetPosts => getPosts
  | GetPost id => getPost id
  | GetPostComments postId => getPostComments postId
  | CreatePost postData => createPost postData
  | UpdatePost id postData => updatePost id postData
  | PatchPost id postData => patchPost id postData
  | DeletePost id => deletePost id
  | GetComments params => getComments params
  | GetComment id => getComment id
  | GetAlbums => getAlbums
  | GetAlbum id => getAlbum id
  | GetAlbumPhotos albumId => getAlbumPhotos albumId
  | GetPhotos params => getPhotos params
  | GetPhoto id => getPhoto id
  | GetTodos params => getTodos params
  | GetTodo id => getTodo id
  | GetUsers => getUsers
  | GetUser id => getUser id
  | GetUserPosts userId => getUserPosts userId
  | GetUserTodos userId => getUserTodos userId
  | GetUserAlbums userId => getUserAlbums userId
  end.

(** A caller that makes the calls of [cs] one after the other on the same
    client, whatever each of them returns or throws. *)
Fixpoint session (cs : list Call) (w : World) : World :=
  match cs with
  | [] => w
  | c :: cs' => session cs' (snd (invoke c w))
  end.

(** The requests a computation puts on the wire when started in [w]. *)
Definition issued {A : Type} (m : M A) (w : World) : list AxiosRequestConfig :=
  skipn (List.length (wire w)) (wire (snd (m w))).

(** The world after one request has gone out. *)
Definition after_request (config : AxiosRequestConfig) (w : World) : World :=
  {| this := this w;
     remote := snd (transport config (remote w));
     wire := wire w ++ [config] |}.

End Client.

(** ** Vocabulary of the specification *)

(** [part] occurs in [whole]. *)
Definition includes (part whole : string) : Prop :=
  exists pre post, whole = pre ++ part ++ post.

(** The message thrown by the [catch] clause of [makeRequest] for a caught
    [error], read off its three branches. *)
Definition failure_message (self : JsonPlaceholderApiClient) (error : ErrorObject)
  : string :=
  match err_response error with
  | Some r =>
      "API request failed: " ++ err_message error
      ++ " - Status: " ++ Js.Number_toString (res_status r)
  | None =>
      if code_is_ECONNABORTED error
      then "Request timed out after " ++ Js.Number_toString (timeout self) ++ "ms"
      else "Unexpected error: " ++ Error_toString error
  end.

(** The three failure kinds of the executor, told apart by the fixed text a
    message starts with, which is how a caller pattern-matches them. *)
Definition is_remote_rejection (msg : string) : bool :=
  String.prefix "API request failed: " msg.
Definition is_timeout (msg : string) : bool :=
  String.prefix "Request timed out after " msg.
Definition is_transport_failure (msg : string) : bool :=
  String.prefix "Unexpected error: " msg.

(** The two errors of the fail-fast checks. *)
Definition is_validation_error (e : ErrorObject) : Prop :=
  e = new_Error "Post ID must be positive"
  \/ e = new_Error "Title and body are required".

(** A string property that is empty or missing. *)
Definition empty_or_missing (s : option string) : Prop :=
  s = None \/ s = Some "".

(** The endpoint table of the specification (section 4.2), column by column:
    written from the table, to be compared with what the methods do. *)
Module EndpointTable.

Definition verb (c : Call) : Method :=
  match c with
  | CreatePost _ => POST
  | UpdatePost _ _ => PUT
  | PatchPost _ _ => PATCH
  | DeletePost _ => DELETE
  | _ => GET
  end.

Definition path (c : Call) : string :=
  match c with
  | GetPosts => "/posts"
  | GetPost id => "/posts/" ++ Js.Number_toString id
  | GetPostComments postId => "/posts/" ++ Js.Number_toString postId ++ "/comments"
  | CreatePost _ => "/posts"
  | UpdatePost id _ => "/posts/" ++ Js.Number_toString id
  | PatchPost id _ => "/posts/" ++ Js.Number_toString id
  | DeletePost id => "/posts/" ++ Js.Number_toString id
  | GetComments _ => "/comments"
  | GetComment id => "/comments/" ++ Js.Number_toString id
  | GetAlbums => "/albums"
  | GetAlbum id => "/albums/" ++ Js.Number_toString id
  | GetAlbumPhotos albumId => "/albums/" ++ Js.Number_toString albumId ++ "/photos"
  | GetPhotos _ => "/photos"
  | GetPhoto id => "/photos/" ++ Js.Number_toString id
  | GetTodos _ => "/todos"
  | GetTodo id => "/todos/" ++ Js.Number_toString id
  | GetUsers => "/users"
  | GetUser id => "/users/" ++ Js.Number_toString id
  | GetUserPosts userId => "/users/" ++ Js.Number_toString userId ++ "/posts"
  | GetUserTodos userId => "/users/" ++ Js.Number_toString userId ++ "/todos"
  | GetUserAlbums userId => "/users/" ++ Js.Number_toString userId ++ "/albums"
  end.

(** Column "Pre-validation": [true] when the arguments pass it. *)
Definition pre_validation (c : Call) : bool :=
  match c with
  | GetPost id => 0 <? id
  | CreatePost postData =>
      Js.truthy_string (cp_title postData) && Js.truthy_string (cp_body postData)
  | _ => true
  end.

(** The methods whose row has a pre-validation entry other than "none". *)
Definition validated (c : Call) : bool :=
  match c with
  | GetPost _ | CreatePost _ => true
  | _ => false
  end.

End EndpointTable.

(** ** A test double for the remote service

    The remote state is a script of answers; each request consumes the next
    one, and an exhausted script rejects with a network error. *)
Module Double.

Definition Script : Type := list (AxiosResponse + ErrorObject).

Definition network_error : ErrorObject :=
  {| err_name := "AxiosError"; err_message := "Network Error";
     err_code := Some "ERR_NETWORK"; err_response := None |}.

Definition transport (config : AxiosRequestConfig) (script : Script)
  : (AxiosResponse + ErrorObject) * Script :=
  match script with
  | [] => (inr network_error, [])
  | answer :: rest => (answer, rest)
  end.

Definition client : JsonPlaceholderApiClient := constructor None None.

Definition probe : AxiosRequestConfig :=
  {| cfg_method := GET; cfg_url := "https://jsonplaceholder.typicode.com/posts/1";
     cfg_timeout := 10000; cfg_data := None; cfg_params := None |}.

Definition ok_post : AxiosResponse :=
  {| res_data := Js.Object [("userId", Js.Number 1); ("id", Js.Number 1);
                            ("title", Js.Str "sunt aut"); ("body", Js.Str "quia et")];
     res_status := 200; res_statusText := "OK";
     res_headers := [("content-type", "application/json; charset=utf-8")];
     res_config := probe |}.

Definition not_found : AxiosResponse :=
  {| res_data := Js.Object []; res_status := 404; res_statusText := "Not Found";
     res_headers := []; res_config := probe |}.

Definition rejected_404 : ErrorObject :=
  {| err_name := "AxiosError"; err_message := "Request failed with status code 404";
     err_code := Some "ERR_BAD_REQUEST"; err_response := Some not_found |}.

Definition timed_out : ErrorObject :=
  {| err_name := "AxiosError"; err_message := "timeout of 10000ms exceeded";
     err_code := Some "ECONNABORTED"; err_response := None |}.

(** An error object that has both a response and the timeout code. *)
Definition aborted_with_response : ErrorObject :=
  {| err_name := "AxiosError"; err_message := "Request failed with status code 404";
     err_code := Some "ECONNABORTED"; err_response := Some not_found |}.

Definition world (script : Script) : World :=
  {| this := client; remote := script; wire := [] |}.

Definition sample_post : CreatePostRequest :=
  {| cp_title := Some "My Test Post"; cp_body := Some "created by the client";
     cp_userId := Some 1 |}.

Definition sample_update : UpdatePostRequest :=
  {| up_title := Some "Updated"; up_body := None; up_userId := None |}.

End Double.

(** What each method hands to the executor as [data] and as [params]. *)
Definition Call_data (c : Call) : Js.Value :=
  match c with
  | CreatePost postData => CreatePostRequest_value postData
  | UpdatePost _ postData | PatchPost _ postData => UpdatePostRequest_value postData
  | _ => Js.Undefined
  end.

Definition Call_params (c : Call) : Js.Value :=
  match c with
  | GetComments params => optional CommentFilter_value params
  | GetPhotos params => optional PhotoFilter_value params
  | GetTodos params => optional TodoFilter_value params
  | _ => Js.Undefined
  end.

(** The envelope built from a response on the success path. *)
Definition envelope (response : AxiosResponse) : ApiResponse :=
  {| data := res_data response;
     status := res_status response;
     statusText := res_statusText response |}.

(** The message of the error a validated method throws when its check fails. *)
Definition validation_message (c : Call) : string :=
  match c with
  | GetPost _ => "Post ID must be positive"
  | _ => "Title and body are required"
  end.

(** ** The example program of [src/example-usage.ts] *)

(** Reading a property [v.p] whose name [p] is not an array index.  The own
    properties of an object are its field list (first binding of a name); an
    array is the object with its elements under "0", "1", ... and its size
    under "length"; a string has [length]; [undefined] and [null] have no
    properties at all and reading one throws a TypeError, which is [None]
    here; on anything else the property is [undefined]. *)
Fixpoint own_property (fields : list (string * Js.Value)) (p : string) : Js.Value :=
  match fields with
  | [] => Js.Undefined
  | (k, v) :: rest => if (k =? p)%string then v else own_property rest p
  end.

Definition property (v : Js.Value) (p : string) : option Js.Value :=
  match v with
  | Js.Undefined | Js.Null => None
  | Js.Object fields => Some (own_property fields p)
  | Js.Str s =>
      Some (if (p =? "length")%string
            then Js.Number (Z.of_nat (String.length s))
            else Js.Undefined)
  | Js.Bool _ | Js.Number _ => Some Js.Undefined
  end.

(** The array [[v0, v1, ...]] as an object. *)
Fixpoint array_elements (i : nat) (vs : list Js.Value) : list (string * Js.Value) :=
  match vs with
  | [] => []
  | v :: rest => (Js.Number_toString (Z.of_nat i), v) :: array_elements (S i) rest
  end.

Definition array (vs : list Js.Value) : Js.Value :=
  Js.Object (array_elements 0 vs
             ++ [("length", Js.Number (Z.of_nat (List.length vs)))]).

(** The object [main] returns. *)
Record ExampleSummary : Type := mkSummary {
  postsCount : Js.Value;
  postTitle : Js.Value;
  commentsCount : Js.Value;
  usersCount : Js.Value;
  todosCount : Js.Value;
  albumsCount : Js.Value;
  createdPostId : Js.Value
}.

(** The literal [newPost] of [main]. *)
Definition newPost : CreatePostRequest :=
  {| cp_title := Some "My Test Post";
     cp_body := Some "This is a test post created by the API client.";
     cp_userId := Some 1 |}.

Section Example.

Context {Remote : Type}.
Variable transport :
  AxiosRequestConfig -> Remote -> (AxiosResponse + ErrorObject) * Remote.

(** The text of the engine's TypeError for reading property [p] of
    [undefined] or [null]; it differs between engine versions. *)
Variable cannot_read : Js.Value -> string -> string.

Definition TypeError (v : Js.Value) (p : string) : ErrorObject :=
  {| err_name := "TypeError"; err_message := cannot_read v p;
     err_code := None; err_response := None |}.

(** [v.p] as a step of a method body. *)
Definition get (v : Js.Value) (p : string) : M (Remote := Remote) Js.Value :=
  match property v p with
  | Some x => ret x
  | None => throw (TypeError v p)
  end.

Notation "x <- m ;; k" := (bind m (fun x => k))
  (at level 100, m at next level, right associativity).

(** The [try] block of [main], run on the client [main] has created. *)
Definition main_try : M ExampleSummary :=
  postsResponse <- getPosts transport ;;
  postResponse <- getPost transport 1 ;;
  commentsResponse <- getPostComments transport 1 ;;
  usersResponse <- getUsers transport ;;
  todosResponse <- getTodos transport
                     (Some {| tf_userId := Some 1; tf_completed := None |}) ;;
  albumsResponse <- getAlbums transport ;;
  createResponse <- createPost transport newPost ;;
  postsCount <- get (data postsResponse) "length" ;;
  postTitle <- get (data postResponse) "title" ;;
  commentsCount <- get (data commentsResponse) "length" ;;
  usersCount <- get (data usersResponse) "length" ;;
  todosCount <- get (data todosResponse) "length" ;;
  albumsCount <- get (data albumsResponse) "length" ;;
  createdPostId <- get (data createResponse) "id" ;;
  ret {| postsCount := postsCount;
         postTitle := postTitle;
         commentsCount := commentsCount;
         usersCount := usersCount;
         todosCount := todosCount;
         albumsCount := albumsCount;
         createdPostId := createdPostId |}.

(** [main()], started against a remote service in state [r]: it creates a
    client with the default arguments and wraps whatever the [try] block
    throws. *)
Definition main (r : Remote) : Outcome ExampleSummary * World :=
  try_catch main_try
    (fun error => throw (new_Error ("Example usage failed: " ++ Error_toString error)))
    {| this := constructor None None; remote := r; wire := [] |}.

(** The answers the remote service gives when the requests of [configs] are
    sent one after the other from state [r], up to and including the first
    rejection. *)
Fixpoint replay (configs : list AxiosRequestConfig) (r : Remote)
  : list (AxiosResponse + ErrorObject) :=
  match configs with
  | [] => []
  | config :: rest =>
      match transport config r with
      | (inl response, r') => inl response :: replay rest r'
      | (inr error, _) => [inr error]
      end
  end.

End Example.

(** The seven requests of [main], in program order. *)
Definition main_requests : list AxiosRequestConfig :=
  let request method path data params :=
    {| cfg_method := method;
       cfg_url := "https://jsonplaceholder.typicode.com" ++ path;
       cfg_timeout := 10000;
       cfg_data := data;
       cfg_params := params |} in
  [ request GET "/posts" None None;
    request GET "/posts/1" None None;
    request GET "/posts/1/comments" None None;
    request GET "/users" None None;
    request GET "/todos" None (Some (Js.Object [("userId", Js.Number 1)]));
    request GET "/albums" None None;
    request POST "/posts"
      (Some (Js.Object [("title", Js.Str "My Test Post");
                        ("body", Js.Str "This is a test post created by the API client.");
                        ("userId", Js.Number 1)]))
      None ].

(** Integers that a JavaScript number holds exactly. *)
Definition safe_integer (n : Z) : Prop := - (2 ^ 53 - 1) <= n <= 2 ^ 53 - 1.

(** The five kinds of error a method can throw, told apart by how the
    message starts; the first three are those of the executor. *)
Definition is_id_validation (msg : string) : bool :=
  String.prefix "Post ID must be positive" msg.
Definition is_post_validation (msg : string) : bool :=
  String.prefix "Title and body are required" msg.

Definition kinds_of (msg : string) : list bool :=
  [is_remote_rejection msg; is_timeout msg; is_transport_failure msg;
   is_id_validation msg; is_post_validation msg].

(** ** A remote service for the example program *)
Module ExampleDouble.

(** The TypeError text of current V8 (Node.js). *)
Definition cannot_read (v : Js.Value) (p : string) : string :=
  "Cannot read properties of "
  ++ match v with Js.Null => "null" | _ => "undefined" end
  ++ " (reading '" ++ p ++ "')".

Definition ok (body : Js.Value) (code : Z) (text : string) : AxiosResponse :=
  {| res_data := body; res_status := code; res_statusText := text;
     res_headers := []; res_config := Double.probe |}.

Definition a_post (id : Z) (title : string) : Js.Value :=
  Js.Object [("userId", Js.Number 1); ("id", Js.Number id);
             ("title", Js.Str title); ("body", Js.Str "quia et suscipit")].

(** A service with two posts, three comments, one user, no todos and one
    album, which answers a create with id 101. *)
Definition answers : Double.Script :=
  [ inl (ok (array [a_post 1 "sunt aut facere"; a_post 2 "qui est esse"]) 200 "OK");
    inl (ok (a_post 1 "sunt aut facere") 200 "OK");
    inl (ok (array [Js.Object []; Js.Object []; Js.Object []]) 200 "OK");
    inl (ok (array [Js.Object [("id", Js.Number 1)]]) 200 "OK");
    inl (ok (array []) 200 "OK");
    inl (ok (array [Js.Object [("id", Js.Number 1)]]) 200 "OK");
    inl (ok (a_post 101 "My Test Post") 201 "Created") ].

(** The same service when the list of posts comes back as [null]. *)
Definition answers_null_posts : Double.Script :=
  inl (ok Js.Null 200 "OK") :: tl answers.

(** The service when the third request times out. *)
Definition answers_timeout : Double.Script :=
  (firstn 2 answers ++ [inr Double.timed_out])%list.

End ExampleDouble.

(** * Properties *)

Lemma skipn_length_app {A : Type} (l l' : list A) :
  skipn (List.length l) (l ++ l') = l'.
Proof. induction l as [|x l IH]; simpl; auto. Qed.

Lemma includes_intro (pre part post : string) :
  includes part (pre ++ part ++ post).
Proof. now exists pre, post. Qed.

Lemma string_app_assoc (a b c : string) : ((a ++ b) ++ c = a ++ (b ++ c))%string.
Proof. induction a as [|x a IH]; simpl; [reflexivity | now rewrite IH]. Qed.

Lemma string_app_nil_r (a : string) : (a ++ "" = a)%string.
Proof. induction a as [|x a IH]; simpl; [reflexivity | now rewrite IH]. Qed.

Lemma code_is_ECONNABORTED_spec (error : ErrorObject) :
  code_is_ECONNABORTED error = true <-> err_code error = Some "ECONNABORTED".
Proof.
  unfold code_is_ECONNABORTED. destruct (err_code error) as [c|].
  - destruct (String.eqb_spec c "ECONNABORTED"); split; intros H;
      first [congruence | discriminate | reflexivity].
  - split; discriminate.
Qed.

Section Properties.

Context {Remote : Type}.
Variable transport :
  AxiosRequestConfig -> Remote -> (AxiosResponse + ErrorObject) * Remote.

(** A run of the executor, in one equation: the configuration literal goes
    out once; a response becomes the envelope and a rejection becomes the
    thrown error of the [catch] clause. *)
Lemma makeRequest_run method endpoint data params (w : World) :
  let config := config_literal (this w) method endpoint data params in
  makeRequest transport method endpoint data params w =
  (match fst (transport config (remote w)) with
   | inl response => Returned (envelope response)
   | inr error => Thrown (new_Error (failure_message (this w) error))
   end, after_request transport config w).
Proof.
  intros config.
  unfold makeRequest, try_catch, bind, get_this, axios, ret, throw,
    after_request, failure_message, envelope; simpl.
  fold config.
  destruct (transport config (remote w)) as [[response | error] remote']; simpl;
    [reflexivity|].
  destruct (err_response error); [reflexivity|].
  destruct (code_is_ECONNABORTED error); reflexivity.
Qed.

Lemma makeRequest_issued method endpoint data params (w : World) :
  issued (makeRequest transport method endpoint data params) w
  = [config_literal (this w) method endpoint data params].
Proof.
  unfold issued. rewrite makeRequest_run. simpl. apply skipn_length_app.
Qed.

Lemma makeRequest_this method endpoint data params (w : World) :
  this (snd (makeRequest transport method endpoint data params w)) = this w.
Proof. rewrite makeRequest_run. reflexivity. Qed.

Lemma prefix_append (p s : string) : String.prefix p (p ++ s) = true.
Proof.
  induction p as [|a p IH]; simpl.
  - now destruct s.
  - destruct (ascii_dec a a) as [_|Hne]; [exact IH | now destruct Hne].
Qed.

Lemma includes_suffix (pre part : string) : includes part (pre ++ part).
Proof. exists pre, "". now rewrite string_app_nil_r. Qed.

(** The three templates never overlap, whatever is interpolated. *)
Lemma failure_kinds_disjoint (self : JsonPlaceholderApiClient) (error : ErrorObject) :
  let msg := failure_message self error in
  match err_response error with
  | Some _ =>
      is_remote_rejection msg = true /\ is_timeout msg = false
      /\ is_transport_failure msg = false
  | None =>
      if code_is_ECONNABORTED error
      then is_remote_rejection msg = false /\ is_timeout msg = true
           /\ is_transport_failure msg = false
      else is_remote_rejection msg = false /\ is_timeout msg = false
           /\ is_transport_failure msg = true
  end.
Proof.
  unfold failure_message, is_remote_rejection, is_timeout, is_transport_failure.
  destruct (err_response error); [|destruct (code_is_ECONNABORTED error)];
    repeat split; first [apply prefix_append | reflexivity].
Qed.

(** C1.  When the transport rejects the request, the executor throws (it never
    returns a value), after putting exactly one request on the wire (nothing
    is retried), and the thrown error is of exactly one of three kinds fixed by
    the caught error: when it carries a response, the message contains the
    transport message and the status code of that response; when it carries
    none and its code is ECONNABORTED, the message states the configured
    timeout in milliseconds; when it carries none and its code is anything
    else, or missing, the message wraps the string form of the cause. *)
Theorem makeRequest_failure_surfaced method endpoint data params
    (w : World) (error : ErrorObject) :
  fst (transport (config_literal (this w) method endpoint data params) (remote w))
    = inr error ->
  exists msg,
    fst (makeRequest transport method endpoint data params w) = Thrown (new_Error msg)
    /\ issued (makeRequest transport method endpoint data params) w
       = [config_literal (this w) method endpoint data params]
    /\ (forall r, err_response error = Some r ->
          msg = "API request failed: " ++ err_message error
                ++ " - Status: " ++ Js.Number_toString (res_status r)
          /\ includes (err_message error) msg
          /\ includes (Js.Number_toString (res_status r)) msg
          /\ is_remote_rejection msg = true
          /\ is_timeout msg = false /\ is_transport_failure msg = false)
    /\ (err_response error = None -> err_code error = Some "ECONNABORTED" ->
          msg = "Request timed out after "
                ++ Js.Number_toString (timeout (this w)) ++ "ms"
          /\ includes (Js.Number_toString (timeout (this w)) ++ "ms") msg
          /\ is_remote_rejection msg = false
          /\ is_timeout msg = true /\ is_transport_failure msg = false)
    /\ (err_response error = None -> err_code error <> Some "ECONNABORTED" ->
          msg = "Unexpected error: " ++ Error_toString error
          /\ includes (Error_toString error) msg
          /\ is_remote_rejection msg = false
          /\ is_timeout msg = false /\ is_transport_failure msg = true).
Proof.
  intros Hreject.
  exists (failure_message (this w) error).
  split; [rewrite makeRequest_run; simpl; now rewrite Hreject|].
  split; [apply makeRequest_issued|].
  pose proof (failure_kinds_disjoint (this w) error) as Hkinds.
  pose proof (code_is_ECONNABORTED_spec error) as Hcode.
  unfold failure_message in *.
  destruct (err_response error) as [r0|].
  - destruct Hkinds as (Hr & Ht & Hu).
    split; [|split; intros Hnone; discriminate Hnone].
    intros r Hr0. injection Hr0 as <-.
    repeat split; trivial.
    + apply includes_intro.
    + exists ("API request failed: " ++ err_message error ++ " - Status: "), "".
      now rewrite string_app_nil_r, !string_app_assoc.
  - split; [intros r Hsome; discriminate Hsome|].
    destruct (code_is_ECONNABORTED error); destruct Hkinds as (Hr & Ht & Hu).
    + split; intros _ Hc.
      * repeat split; trivial; apply includes_suffix.
      * exfalso. apply Hc. now apply Hcode.
    + split; intros _ Hc.
      * apply Hcode in Hc. discriminate Hc.
      * repeat split; trivial; apply includes_suffix.
Qed.

(** C10.  A caught error that carries both a response and the code
    ECONNABORTED is reported as a remote rejection with the status of that
    response, not as a timeout: the response is tested first. *)
Theorem response_takes_precedence_over_timeout method endpoint data params
    (w : World) (error : ErrorObject) (r : AxiosResponse) :
  fst (transport (config_literal (this w) method endpoint data params) (remote w))
    = inr error ->
  err_response error = Some r ->
  err_code error = Some "ECONNABORTED" ->
  let rejection := "API request failed: " ++ err_message error
                   ++ " - Status: " ++ Js.Number_toString (res_status r) in
  fst (makeRequest transport method endpoint data params w)
    = Thrown (new_Error rejection)
  /\ is_remote_rejection rejection = true
  /\ is_timeout rejection = false
  /\ fst (makeRequest transport method endpoint data params w)
     <> Thrown (new_Error ("Request timed out after "
                           ++ Js.Number_toString (timeout (this w)) ++ "ms")).
Proof.
  intros Hreject Hresp Hcode rejection.
  assert (Hrun : fst (makeRequest transport method endpoint data params w)
                 = Thrown (new_Error rejection)).
  { rewrite makeRequest_run; simpl. rewrite Hreject.
    unfold failure_message. now rewrite Hresp. }
  rewrite Hrun.
  repeat split.
  - apply prefix_append.
  - intros Heq. subst rejection. simpl in Heq. discriminate Heq.
Qed.

(** The endpoint methods hand the executor either nothing or an object. *)
Lemma endpoint_arguments_shape (c : Call) :
  (Call_data c = Js.Undefined \/ exists fields, Call_data c = Js.Object fields)
  /\ (Call_params c = Js.Undefined \/ exists fields, Call_params c = Js.Object fields).
Proof.
  destruct c; simpl; try destruct params; simpl; split;
    first [now left | right; eexists; reflexivity].
Qed.

(** *** The endpoint methods *)

Lemma issued_nothing {A : Type} (o : Outcome A) (w : World (Remote := Remote)) :
  issued (fun w' => (o, w')) w = [].
Proof. unfold issued; simpl. apply skipn_all. Qed.

(** Every method is its pre-validation followed by one call of the executor
    with the verb and path of its row. *)
Lemma invoke_run (c : Call) (w : World) :
  invoke transport c w =
  if EndpointTable.pre_validation c
  then makeRequest transport (EndpointTable.verb c) (EndpointTable.path c)
         (Call_data c) (Call_params c) w
  else (Thrown (new_Error (validation_message c)), w).
Proof.
  destruct c; simpl; try reflexivity.
  - unfold getPost. destruct (Z.leb_spec id 0), (Z.ltb_spec 0 id);
      first [reflexivity | lia].
  - unfold createPost.
    destruct (Js.truthy_string (cp_title postData)),
             (Js.truthy_string (cp_body postData)); reflexivity.
Qed.

Lemma invoke_issued (c : Call) (w : World) :
  issued (invoke transport c) w =
  if EndpointTable.pre_validation c
  then [config_literal (this w) (EndpointTable.verb c) (EndpointTable.path c)
          (Call_data c) (Call_params c)]
  else [].
Proof.
  unfold issued. rewrite invoke_run.
  destruct (EndpointTable.pre_validation c).
  - apply makeRequest_issued.
  - simpl. apply skipn_all.
Qed.

Lemma invoke_this (c : Call) (w : World) :
  this (snd (invoke transport c w)) = this w.
Proof.
  rewrite invoke_run. destruct (EndpointTable.pre_validation c);
    [apply makeRequest_this | reflexivity].
Qed.

(** C2.  In every invocation of the executor, that is, in the call each public
    method makes with its [data] and [params], the configuration sent has a
    [data] property exactly when a body was passed, and it is then that body;
    it has a [params] property exactly when a params argument was passed, and
    it is then that argument; a property whose argument is absent is not in
    the configuration at all. *)
Theorem request_fields_iff_provided (c : Call) (w : World)
    (config : AxiosRequestConfig) :
  In config (issued (invoke transport c) w) ->
  invoke transport c w
  = makeRequest transport (EndpointTable.verb c) (EndpointTable.path c)
      (Call_data c) (Call_params c) w
  /\ (cfg_data config <> None <-> Call_data c <> Js.Undefined)
  /\ (cfg_params config <> None <-> Call_params c <> Js.Undefined)
  /\ (Call_data c <> Js.Undefined -> cfg_data config = Some (Call_data c))
  /\ (Call_params c <> Js.Undefined -> cfg_params config = Some (Call_params c))
  /\ (Call_data c = Js.Undefined -> cfg_data config = None)
  /\ (Call_params c = Js.Undefined -> cfg_params config = None).
Proof.
  pose proof (invoke_run c w) as Hrun.
  rewrite invoke_issued.
  destruct (EndpointTable.pre_validation c); [|contradiction].
  intros [<-|[]].
  split; [exact Hrun|].
  unfold config_literal, spread_if; cbn [cfg_data cfg_params].
  destruct (endpoint_arguments_shape c) as [[Hd|[fd Hd]] [Hp|[fp Hp]]];
    rewrite Hd, Hp; simpl;
    repeat split; intros; first [discriminate | congruence | reflexivity].
Qed.

Lemma failure_message_not_validation (self : JsonPlaceholderApiClient)
    (error : ErrorObject) :
  ~ is_validation_error (new_Error (failure_message self error)).
Proof.
  unfold is_validation_error, failure_message, new_Error.
  destruct (err_response error); [|destruct (code_is_ECONNABORTED error)];
    simpl; intros [H|H]; discriminate H.
Qed.

(** What the executor throws is never one of the two validation errors. *)
Lemma makeRequest_not_validation method endpoint data params (w : World) e :
  fst (makeRequest transport method endpoint data params w) = Thrown e ->
  ~ is_validation_error e.
Proof.
  rewrite makeRequest_run; simpl.
  destruct (fst (transport _ (remote w))); intros H; inversion H; subst.
  apply failure_message_not_validation.
Qed.

Lemma truthy_string_spec (s : option string) :
  Js.truthy_string s = false <-> empty_or_missing s.
Proof.
  unfold empty_or_missing. destruct s as [s|]; simpl.
  - destruct (String.eqb_spec s ""); simpl; split; intros H;
      try discriminate; try (subst; auto; fail).
    + destruct H as [H|H]; [discriminate | congruence].
  - split; auto.
Qed.

(** C3.  [getPost] with an id of zero or less throws its validation error and
    leaves the world as it was: nothing has gone to the network.  With a
    positive id it is the executor's GET on /posts/{id}: that one request goes
    out and no validation error is raised. *)
Theorem getPost_validation (id : Z) (w : World) :
  (id <= 0 ->
     getPost transport id w = (Thrown (new_Error "Post ID must be positive"), w)
     /\ issued (getPost transport id) w = [])
  /\ (0 < id ->
        getPost transport id w
        = makeRequest transport GET ("/posts/" ++ Js.Number_toString id)
            Js.Undefined Js.Undefined w
        /\ issued (getPost transport id) w
           = [{| cfg_method := GET;
                 cfg_url := baseUrl (this w) ++ "/posts/" ++ Js.Number_toString id;
                 cfg_timeout := timeout (this w);
                 cfg_data := None;
                 cfg_params := None |}]
        /\ forall e, fst (getPost transport id w) = Thrown e ->
                     ~ is_validation_error e).
Proof.
  unfold getPost. split; intros Hid.
  - destruct (Z.leb_spec id 0); [|lia].
    split; [reflexivity | apply issued_nothing].
  - destruct (Z.leb_spec id 0); [lia|].
    split; [reflexivity|]. split.
    + apply makeRequest_issued.
    + intros e. apply makeRequest_not_validation.
Qed.

(** C4.  [createPost] throws its validation error with nothing sent exactly
    when the title or the body is empty or missing; otherwise it is the
    executor's POST on /posts with [postData] as the body, and no validation
    error is raised. *)
Theorem createPost_validation (postData : CreatePostRequest) (w : World) :
  ((empty_or_missing (cp_title postData) \/ empty_or_missing (cp_body postData))
   <->
   (fst (createPost transport postData w)
      = Thrown (new_Error "Title and body are required")
    /\ issued (createPost transport postData) w = []))
  /\ (~ (empty_or_missing (cp_title postData) \/ empty_or_missing (cp_body postData)) ->
        createPost transport postData w
        = makeRequest transport POST "/posts"
            (CreatePostRequest_value postData) Js.Undefined w
        /\ issued (createPost transport postData) w
           = [{| cfg_method := POST;
                 cfg_url := baseUrl (this w) ++ "/posts";
                 cfg_timeout := timeout (this w);
                 cfg_data := Some (CreatePostRequest_value postData);
                 cfg_params := None |}]
        /\ forall e, fst (createPost transport postData w) = Thrown e ->
                     ~ is_validation_error e).
Proof.
  rewrite <- !truthy_string_spec.
  unfold createPost.
  destruct (Js.truthy_string (cp_title postData)) eqn:Ht,
           (Js.truthy_string (cp_body postData)) eqn:Hb; simpl.
  - split.
    + split.
      * intros [H|H]; discriminate H.
      * intros [_ Hnone]. rewrite makeRequest_issued in Hnone. discriminate Hnone.
    + intros _. split; [reflexivity|]. split.
      * apply makeRequest_issued.
      * intros e. apply makeRequest_not_validation.
  - split; [|intros H; exfalso; apply H; now right].
    split; [intros _; split; [reflexivity | apply issued_nothing] | now right].
  - split; [|intros H; exfalso; apply H; now left].
    split; [intros _; split; [reflexivity | apply issued_nothing] | now left].
  - split; [|intros H; exfalso; apply H; now left].
    split; [intros _; split; [reflexivity | apply issued_nothing] | now left].
Qed.

(** C5.  When the request of a client call is answered with a response, the
    call returns the envelope made of that response's data, status code and
    status text, each copied as it is; the envelope type has no other field,
    so headers and the rest of the response are dropped. *)
Theorem success_returns_envelope (c : Call) (w : World)
    (config : AxiosRequestConfig) (response : AxiosResponse) :
  issued (invoke transport c) w = [config] ->
  fst (transport config (remote w)) = inl response ->
  fst (invoke transport c w)
  = Returned {| data := res_data response;
                status := res_status response;
                statusText := res_statusText response |}.
Proof.
  rewrite invoke_issued, invoke_run.
  destruct (EndpointTable.pre_validation c); [|discriminate].
  intros Hcfg Hresp. injection Hcfg as <-.
  rewrite makeRequest_run; simpl. now rewrite Hresp.
Qed.

(** C6, as the code has it.  A call whose arguments pass the method's
    pre-validation puts exactly one request on the wire; its URL is the base
    URL followed by the path of the method's row with the argument
    interpolated, and its verb is that of the row. *)
Theorem endpoint_request_matches_table (c : Call) (w : World) :
  EndpointTable.pre_validation c = true ->
  exists config,
    issued (invoke transport c) w = [config]
    /\ cfg_method config = EndpointTable.verb c
    /\ cfg_url config = baseUrl (this w) ++ EndpointTable.path c.
Proof.
  intros Hpass. rewrite invoke_issued, Hpass.
  eexists; split; [reflexivity|]. split; reflexivity.
Qed.

(** C7.  A method other than [getPost] and [createPost] never stops before
    the network: whatever its arguments, it is the executor's call for its
    row, one request goes out, and an error it throws is not a validation
    error.  The two validated methods do fail fast: [getPost(0)] and
    [createPost] with an empty title and body throw a validation error and
    leave the world untouched. *)
Theorem unvalidated_methods_reach_network (c : Call) (w : World) :
  EndpointTable.validated c = false ->
  invoke transport c w
  = makeRequest transport (EndpointTable.verb c) (EndpointTable.path c)
      (Call_data c) (Call_params c) w
  /\ (exists config, issued (invoke transport c) w = [config])
  /\ (forall e, fst (invoke transport c w) = Thrown e -> ~ is_validation_error e)
  /\ (exists e, invoke transport (GetPost 0) w = (Thrown e, w)
                /\ is_validation_error e)
  /\ (exists e, invoke transport
                  (CreatePost {| cp_title := Some ""; cp_body := Some "";
                                 cp_userId := Some 1 |}) w = (Thrown e, w)
                /\ is_validation_error e).
Proof.
  intros Hfree.
  assert (Hpass : EndpointTable.pre_validation c = true)
    by (destruct c; simpl in *; first [reflexivity | discriminate]).
  assert (Hrun := invoke_run c w). rewrite Hpass in Hrun.
  split; [exact Hrun|]. split; [|split; [|split]].
  - rewrite invoke_issued, Hpass. eexists; reflexivity.
  - intros e. rewrite Hrun. apply makeRequest_not_validation.
  - eexists; split; [reflexivity | now left].
  - eexists; split; [reflexivity | now right].
Qed.

Lemma session_this (cs : list Call) (w : World) :
  this (session transport cs w) = this w.
Proof.
  revert w. induction cs as [|c cs IH]; intros w; simpl; [reflexivity|].
  rewrite IH. apply invoke_this.
Qed.

(** C8.  No call changes the client: [baseUrl] and [timeout] are after a call,
    and after any sequence of calls, what they were, so a client keeps the
    values its constructor was given.  The request a call sends
    after any earlier calls is the one it would send as the first call, and in
    two worlds with the same client in which the remote service gives the same
    answer to that request, the call ends the same way. *)
Theorem calls_leave_client_unchanged (cs : list Call) (c : Call) (w w2 : World) :
  this (snd (invoke transport c w)) = this w
  /\ this (session transport cs w) = this w
  /\ (forall url ms r,
        this (session transport cs
                {| this := constructor (Some url) (Some ms); remote := r; wire := [] |})
        = {| baseUrl := url; timeout := ms |})
  /\ issued (invoke transport c) (session transport cs w)
     = issued (invoke transport c) w
  /\ (this w2 = this w ->
      (forall config, In config (issued (invoke transport c) w) ->
         fst (transport config (remote w2)) = fst (transport config (remote w))) ->
      fst (invoke transport c w2) = fst (invoke transport c w)).
Proof.
  split; [apply invoke_this|].
  split; [apply session_this|].
  split; [intros url ms r; now rewrite session_this|].
  split; [now rewrite !invoke_issued, session_this|].
  intros Hthis Hanswer.
  rewrite invoke_issued in Hanswer. rewrite !invoke_run.
  destruct (EndpointTable.pre_validation c); [|reflexivity].
  rewrite !makeRequest_run; simpl. rewrite Hthis.
  rewrite (Hanswer _ (or_introl eq_refl)). reflexivity.
Qed.

(** C9.  [createPost] looks at the title and the body only: when both are
    non-empty strings, then for any [userId], missing ones included, it is the
    executor's POST on /posts with the whole [postData] as the body, that
    request goes out, and no validation error is raised. *)
Theorem createPost_ignores_userId (title body : string) (userId : option Z)
    (w : World) :
  title <> "" -> body <> "" ->
  let postData :=
    {| cp_title := Some title; cp_body := Some body; cp_userId := userId |} in
  createPost transport postData w
  = makeRequest transport POST "/posts" (CreatePostRequest_value postData)
      Js.Undefined w
  /\ issued (createPost transport postData) w
     = [{| cfg_method := POST;
           cfg_url := baseUrl (this w) ++ "/posts";
           cfg_timeout := timeout (this w);
           cfg_data := Some (CreatePostRequest_value postData);
           cfg_params := None |}]
  /\ (forall e, fst (createPost transport postData w) = Thrown e ->
                ~ is_validation_error e).
Proof.
  intros Ht Hb postData.
  assert (Hrun : createPost transport postData w
                 = makeRequest transport POST "/posts"
                     (CreatePostRequest_value postData) Js.Undefined w).
  { unfold createPost, postData; simpl.
    destruct (String.eqb_spec title ""); [contradiction|].
    destruct (String.eqb_spec body ""); [contradiction|]. reflexivity. }
  split; [exact Hrun|]. split.
  - unfold issued. rewrite Hrun. apply makeRequest_issued.
  - intros e. rewrite Hrun. apply makeRequest_not_validation.
Qed.

End Properties.

(** * The properties on the test double *)

(** The three kinds on the test double: a post that does not exist (the
    remote service answers 404), a request that times out, and a network that
    is down. *)
Lemma makeRequest_failure_surfaced_witness :
  (exists msg,
     fst (makeRequest Double.transport GET "/posts/999" Js.Undefined Js.Undefined
            (Double.world [inr Double.rejected_404]))
     = Thrown (new_Error msg)
     /\ msg = "API request failed: Request failed with status code 404 - Status: 404")
  /\ (exists msg,
        fst (makeRequest Double.transport GET "/posts" Js.Undefined Js.Undefined
               (Double.world [inr Double.timed_out]))
        = Thrown (new_Error msg)
        /\ msg = "Request timed out after 10000ms")
  /\ (exists msg,
        fst (makeRequest Double.transport GET "/posts" Js.Undefined Js.Undefined
               (Double.world []))
        = Thrown (new_Error msg)
        /\ msg = "Unexpected error: AxiosError: Network Error").
Proof.
  split; [|split].
  - destruct (makeRequest_failure_surfaced Double.transport GET "/posts/999"
                Js.Undefined Js.Undefined (Double.world [inr Double.rejected_404])
                Double.rejected_404 eq_refl)
      as (msg & Hthrown & _ & Hresponse & _).
    exists msg. split; [exact Hthrown|].
    exact (proj1 (Hresponse Double.not_found eq_refl)).
  - destruct (makeRequest_failure_surfaced Double.transport GET "/posts"
                Js.Undefined Js.Undefined (Double.world [inr Double.timed_out])
                Double.timed_out eq_refl)
      as (msg & Hthrown & _ & _ & Htimeout & _).
    exists msg. split; [exact Hthrown|].
    exact (proj1 (Htimeout eq_refl eq_refl)).
  - destruct (makeRequest_failure_surfaced Double.transport GET "/posts"
                Js.Undefined Js.Undefined (Double.world [])
                Double.network_error eq_refl)
      as (msg & Hthrown & _ & _ & _ & Hother).
    exists msg. split; [exact Hthrown|].
    refine (proj1 (Hother eq_refl _)). discriminate.
Defined.

Lemma response_takes_precedence_over_timeout_witness :
  fst (makeRequest Double.transport GET "/posts/999" Js.Undefined Js.Undefined
         (Double.world [inr Double.aborted_with_response]))
  = Thrown (new_Error
              "API request failed: Request failed with status code 404 - Status: 404").
Proof.
  exact (proj1 (response_takes_precedence_over_timeout Double.transport
                  GET "/posts/999" Js.Undefined Js.Undefined
                  (Double.world [inr Double.aborted_with_response])
                  Double.aborted_with_response Double.not_found
                  eq_refl eq_refl eq_refl)).
Defined.

(** [createPost] passes a body and no params; [getTodos] with an empty filter
    passes params, the empty object, and no body. *)
Lemma request_fields_iff_provided_witness :
  (exists config,
     issued (invoke Double.transport (CreatePost Double.sample_post)) (Double.world [])
     = [config]
     /\ cfg_data config = Some (CreatePostRequest_value Double.sample_post)
     /\ cfg_params config = None)
  /\ (exists config,
        issued (invoke Double.transport
                  (GetTodos (Some {| tf_userId := None; tf_completed := None |})))
          (Double.world []) = [config]
        /\ cfg_data config = None
        /\ cfg_params config = Some (Js.Object [])).
Proof.
  split.
  - eexists. split; [reflexivity|].
    destruct (request_fields_iff_provided Double.transport
                (CreatePost Double.sample_post) (Double.world []) _
                (or_introl eq_refl))
      as (_ & _ & _ & Hdata & _ & _ & Hparams).
    split; [apply Hdata; discriminate | apply Hparams; reflexivity].
  - eexists. split; [reflexivity|].
    destruct (request_fields_iff_provided Double.transport
                (GetTodos (Some {| tf_userId := None; tf_completed := None |}))
                (Double.world []) _ (or_introl eq_refl))
      as (_ & _ & _ & _ & Hparams & Hdata & _).
    split; [apply Hdata; reflexivity | apply Hparams; discriminate].
Defined.

Lemma getPost_validation_witness :
  issued (getPost Double.transport 0) (Double.world [inl Double.ok_post]) = []
  /\ issued (getPost Double.transport 1) (Double.world [inl Double.ok_post])
     = [Double.probe].
Proof.
  split.
  - apply (proj1 (getPost_validation Double.transport 0
                    (Double.world [inl Double.ok_post]))). lia.
  - apply (proj2 (getPost_validation Double.transport 1
                    (Double.world [inl Double.ok_post]))). lia.
Defined.

Lemma createPost_validation_witness :
  fst (createPost Double.transport
         {| cp_title := Some ""; cp_body := None; cp_userId := Some 1 |}
         (Double.world []))
  = Thrown (new_Error "Title and body are required")
  /\ issued (createPost Double.transport Double.sample_post) (Double.world [])
     = [{| cfg_method := POST;
           cfg_url := "https://jsonplaceholder.typicode.com/posts";
           cfg_timeout := 10000;
           cfg_data := Some (CreatePostRequest_value Double.sample_post);
           cfg_params := None |}].
Proof.
  split.
  - apply (proj1 (createPost_validation Double.transport
                    {| cp_title := Some ""; cp_body := None; cp_userId := Some 1 |}
                    (Double.world []))).
    left. right. reflexivity.
  - apply (proj2 (createPost_validation Double.transport Double.sample_post
                    (Double.world []))).
    intros [[H|H]|[H|H]]; discriminate H.
Defined.

Lemma success_returns_envelope_witness :
  fst (invoke Double.transport (GetPost 1) (Double.world [inl Double.ok_post]))
  = Returned {| data := res_data Double.ok_post; status := 200; statusText := "OK" |}.
Proof.
  apply (success_returns_envelope Double.transport (GetPost 1)
           (Double.world [inl Double.ok_post]) Double.probe Double.ok_post);
    reflexivity.
Defined.

Lemma endpoint_request_matches_table_witness :
  exists config,
    issued (invoke Double.transport (UpdatePost 7 Double.sample_update))
      (Double.world []) = [config]
    /\ cfg_method config = PUT
    /\ cfg_url config = "https://jsonplaceholder.typicode.com/posts/7".
Proof.
  apply (endpoint_request_matches_table Double.transport
           (UpdatePost 7 Double.sample_update) (Double.world [])).
  reflexivity.
Defined.

(** C6 as stated fails for a validated method with invalid input:
    [getPost(0)] sends no request at all. *)
Lemma getPost_zero_issues_no_request :
  ~ (exists config,
       issued (invoke Double.transport (GetPost 0)) (Double.world [inl Double.ok_post])
       = [config]
       /\ cfg_method config = EndpointTable.verb (GetPost 0)
       /\ cfg_url config = baseUrl Double.client ++ EndpointTable.path (GetPost 0)).
Proof.
  intros (config & Hsent & _). discriminate Hsent.
Qed.

Lemma unvalidated_methods_reach_network_witness :
  exists config,
    issued (invoke Double.transport (DeletePost (-1))) (Double.world []) = [config].
Proof.
  apply (unvalidated_methods_reach_network Double.transport (DeletePost (-1))
           (Double.world [])).
  reflexivity.
Defined.

(** After a call that timed out, the same call against a remote service that
    answers alike ends as it would on a fresh client. *)
Lemma calls_leave_client_unchanged_witness :
  fst (invoke Double.transport (GetPost 1)
         (session Double.transport [GetPosts]
            (Double.world [inr Double.timed_out; inl Double.ok_post])))
  = fst (invoke Double.transport (GetPost 1) (Double.world [inl Double.ok_post])).
Proof.
  apply (calls_leave_client_unchanged Double.transport [] (GetPost 1)
           (Double.world [inl Double.ok_post])
           (session Double.transport [GetPosts]
              (Double.world [inr Double.timed_out; inl Double.ok_post]))).
  - reflexivity.
  - intros config [<-|[]]. reflexivity.
Defined.

Lemma createPost_ignores_userId_witness :
  issued (createPost Double.transport
            {| cp_title := Some "t"; cp_body := Some "b"; cp_userId := Some (-3) |})
    (Double.world [])
  = [{| cfg_method := POST;
        cfg_url := "https://jsonplaceholder.typicode.com/posts";
        cfg_timeout := 10000;
        cfg_data := Some (Js.Object [("title", Js.Str "t"); ("body", Js.Str "b");
                                     ("userId", Js.Number (-3))]);
        cfg_params := None |}].
Proof.
  apply (createPost_ignores_userId Double.transport "t" "b" (Some (-3))
           (Double.world [])); discriminate.
Defined.

(** * Further properties of the client *)

Lemma string_app_inv_head (p s t : string) : (p ++ s = p ++ t -> s = t)%string.
Proof.
  induction p as [|a p IH]; simpl; intros H; [exact H|].
  injection H as H. now apply IH.
Qed.

Lemma string_length_app (s t : string) :
  String.length (s ++ t) = (String.length s + String.length t)%nat.
Proof. induction s as [|a s IH]; simpl; [reflexivity | now rewrite IH]. Qed.

Lemma string_app_inv_tail (s t u : string) : (s ++ u = t ++ u -> s = t)%string.
Proof.
  revert t. induction s as [|a s IH]; intros [|b t] H; simpl in H.
  - reflexivity.
  - apply (f_equal String.length) in H. simpl in H.
    rewrite string_length_app in H. lia.
  - apply (f_equal String.length) in H. simpl in H.
    rewrite string_length_app in H. lia.
  - injection H as -> H. f_equal. now apply IH.
Qed.

Lemma Number_toString_inj (a b : Z) :
  Js.Number_toString a = Js.Number_toString b -> a = b.
Proof.
  unfold Js.Number_toString. intros H.
  apply DecimalZ.to_int_inj.
  assert (Hparse : Some (Z.to_int a) = Some (Z.to_int b))
    by (rewrite <- !NilEmpty.isi; now rewrite H).
  now injection Hparse.
Qed.

Section Surface.

Context {Remote : Type}.
Variable transport :
  AxiosRequestConfig -> Remote -> (AxiosResponse + ErrorObject) * Remote.

Lemma invoke_wire (c : Call) (w : World) :
  wire (snd (invoke transport c w))
  = (wire w ++ issued (invoke transport c) w)%list.
Proof.
  rewrite invoke_issued, invoke_run.
  destruct (EndpointTable.pre_validation c).
  - rewrite makeRequest_run. reflexivity.
  - simpl. now rewrite app_nil_r.
Qed.

Lemma issued_same_client (c : Call) (w w' : World) :
  this w' = this w ->
  issued (invoke transport c) w' = issued (invoke transport c) w.
Proof. intros H. now rewrite !invoke_issued, H. Qed.

Lemma session_wire (cs : list Call) (w : World) :
  wire (session transport cs w)
  = (wire w ++ flat_map (fun c => issued (invoke transport c) w) cs)%list.
Proof.
  revert w. induction cs as [|c cs IH]; intros w; simpl.
  - now rewrite app_nil_r.
  - rewrite IH, invoke_wire, <- app_assoc. do 2 f_equal.
    apply flat_map_ext. intros c'. apply issued_same_client, invoke_this.
Qed.

(** The requests of a sequence of calls are the requests of the single calls,
    one after the other in call order: a call is never answered from an
    earlier one, merged with it or reordered, and a call that fails its
    validation adds nothing. *)
Theorem session_sends_each_request_in_order (cs : list Call) (w : World) :
  wire (session transport cs w)
  = (wire w ++ flat_map (fun c => issued (invoke transport c) w) cs)%list
  /\ (List.length (flat_map (fun c => issued (invoke transport c) w) cs)
      <= List.length cs)%nat.
Proof.
  split; [apply session_wire|].
  induction cs as [|c cs IH]; simpl; [lia|].
  rewrite length_app, invoke_issued.
  destruct (EndpointTable.pre_validation c); simpl; lia.
Qed.

(** Every request that a sequence of calls adds to the wire carries the
    timeout of the client and a URL that starts with its base URL. *)
Theorem session_requests_carry_client_settings (cs : list Call) (w : World)
    (config : AxiosRequestConfig) :
  In config (skipn (List.length (wire w)) (wire (session transport cs w))) ->
  cfg_timeout config = timeout (this w)
  /\ String.prefix (baseUrl (this w)) (cfg_url config) = true.
Proof.
  rewrite session_wire, skipn_length_app.
  rewrite in_flat_map. intros (c & _ & Hin).
  rewrite invoke_issued in Hin.
  destruct (EndpointTable.pre_validation c); [|contradiction].
  destruct Hin as [<-|[]]. split; [reflexivity | apply prefix_append].
Qed.

(** What a request carries besides verb and URL: a body exactly for
    [createPost], [updatePost] and [patchPost], which is their [postData]
    (the empty object included), and query parameters exactly for the three
    list methods called with a filter, which is that filter object. *)
Theorem request_body_and_params (c : Call) (w : World) (config : AxiosRequestConfig) :
  In config (issued (invoke transport c) w) ->
  cfg_data config
  = match c with
    | CreatePost postData => Some (CreatePostRequest_value postData)
    | UpdatePost _ postData | PatchPost _ postData =>
        Some (UpdatePostRequest_value postData)
    | _ => None
    end
  /\ cfg_params config
     = match c with
       | GetComments (Some filter) => Some (CommentFilter_value filter)
       | GetPhotos (Some filter) => Some (PhotoFilter_value filter)
       | GetTodos (Some filter) => Some (TodoFilter_value filter)
       | _ => None
       end.
Proof.
  rewrite invoke_issued.
  destruct (EndpointTable.pre_validation c); [|contradiction].
  intros [<-|[]].
  destruct c; try destruct params; split; reflexivity.
Qed.

(** An error thrown by a public method is a plain [Error]: it has no [code]
    and no [response] (those of the caught transport error are not passed
    on), and its message is of exactly one of the five kinds. *)
Theorem thrown_errors_are_plain (c : Call) (w : World) (e : ErrorObject) :
  fst (invoke transport c w) = Thrown e ->
  err_name e = "Error" /\ err_code e = None /\ err_response e = None
  /\ count_occ bool_dec (kinds_of (err_message e)) true = 1%nat.
Proof.
  rewrite invoke_run.
  destruct (EndpointTable.pre_validation c).
  - rewrite makeRequest_run; simpl.
    destruct (fst (transport _ (remote w))) as [response|error];
      intros H; inversion H; subst; clear H.
    repeat split.
    pose proof (failure_kinds_disjoint (this w) error) as Hkinds.
    unfold kinds_of; simpl err_message.
    assert (Hid : is_id_validation (failure_message (this w) error) = false)
      by (unfold failure_message; destruct (err_response error);
          [|destruct (code_is_ECONNABORTED error)]; reflexivity).
    assert (Hpost : is_post_validation (failure_message (this w) error) = false)
      by (unfold failure_message; destruct (err_response error);
          [|destruct (code_is_ECONNABORTED error)]; reflexivity).
    rewrite Hid, Hpost.
    destruct (err_response error); [|destruct (code_is_ECONNABORTED error)];
      simpl in Hkinds; destruct Hkinds as (-> & -> & ->); reflexivity.
  - simpl. intros H; inversion H; subst; clear H.
    repeat split. destruct c; reflexivity.
Qed.

(** A value is returned only from a response: the call has then sent exactly
    one request, the remote service has answered it with a response, and the
    value is the envelope of that response. *)
Theorem returned_only_from_response (c : Call) (w : World) (a : ApiResponse) :
  fst (invoke transport c w) = Returned a ->
  exists config response,
    issued (invoke transport c) w = [config]
    /\ fst (transport config (remote w)) = inl response
    /\ a = {| data := res_data response;
              status := res_status response;
              statusText := res_statusText response |}.
Proof.
  rewrite invoke_issued, invoke_run.
  destruct (EndpointTable.pre_validation c); [|discriminate].
  rewrite makeRequest_run; simpl.
  destruct (fst (transport _ (remote w))) as [response|error] eqn:Hanswer;
    intros H; inversion H; subst.
  eexists; exists response. repeat split. exact Hanswer.
Qed.

(** For any public method whose request is rejected, the kind of the thrown
    error is fixed by the caught error: remote rejection exactly when it has
    a response, timeout exactly when it has none and its code is
    ECONNABORTED, transport failure in every other case. *)
Theorem rejection_kind_iff (c : Call) (w : World)
    (config : AxiosRequestConfig) (error : ErrorObject) :
  issued (invoke transport c) w = [config] ->
  fst (transport config (remote w)) = inr error ->
  exists msg,
    fst (invoke transport c w) = Thrown (new_Error msg)
    /\ (is_remote_rejection msg = true <-> err_response error <> None)
    /\ (is_timeout msg = true
        <-> err_response error = None /\ err_code error = Some "ECONNABORTED")
    /\ (is_transport_failure msg = true
        <-> err_response error = None /\ err_code error <> Some "ECONNABORTED").
Proof.
  rewrite invoke_issued, invoke_run.
  destruct (EndpointTable.pre_validation c); [|discriminate].
  intros Hcfg Hreject. injection Hcfg as <-.
  exists (failure_message (this w) error).
  split; [rewrite makeRequest_run; simpl; now rewrite Hreject|].
  pose proof (failure_kinds_disjoint (this w) error) as Hkinds.
  pose proof (code_is_ECONNABORTED_spec error) as Hcode.
  simpl in Hkinds.
  destruct (err_response error) as [r|].
  - destruct Hkinds as (-> & -> & ->).
    repeat split; intros; intuition (discriminate || congruence).
  - destruct (code_is_ECONNABORTED error); destruct Hkinds as (-> & -> & ->).
    + assert (Hc : err_code error = Some "ECONNABORTED") by now apply Hcode.
      repeat split; intros; intuition (discriminate || congruence).
    + assert (Hc : err_code error <> Some "ECONNABORTED")
        by (intros H; apply Hcode in H; discriminate H).
      repeat split; intros; intuition (discriminate || congruence).
Qed.

End Surface.

Section Addressing.

Context {Remote : Type}.
Variable transport :
  AxiosRequestConfig -> Remote -> (AxiosResponse + ErrorObject) * Remote.

Lemma issued_throw {A : Type} (e : ErrorObject) (w : World (Remote := Remote)) :
  issued (throw (A := A) e) w = [].
Proof. unfold issued, throw; simpl. apply skipn_all. Qed.

Ltac same_url H :=
  unfold config_literal in H; cbn [cfg_url] in H;
  do 2 apply string_app_inv_head in H;
  try apply string_app_inv_tail in H;
  apply Number_toString_inj in H.

(** The id is part of the address: the same method called with two different
    ids never sends its request to the same URL. *)
Theorem distinct_ids_distinct_urls (a b : Z) (w : World)
    (postData : UpdatePostRequest) (m : Z -> M ApiResponse)
    (config_a config_b : AxiosRequestConfig) :
  safe_integer a -> safe_integer b -> a <> b ->
  In m [getPost transport; getPostComments transport;
        (fun id => updatePost transport id postData);
        (fun id => patchPost transport id postData);
        deletePost transport; getComment transport;
        getAlbum transport; getAlbumPhotos transport; getPhoto transport;
        getTodo transport; getUser transport; getUserPosts transport;
        getUserTodos transport; getUserAlbums transport] ->
  In config_a (issued (m a) w) ->
  In config_b (issued (m b) w) ->
  cfg_url config_a <> cfg_url config_b.
Proof.
  intros _ _ Hab Hm Ha Hb Hurl.
  simpl in Hm.
  repeat (destruct Hm as [<-|Hm];
          [ first
              [ (* getPost, which may send nothing *)
                unfold getPost in Ha, Hb;
                destruct (a <=? 0); [rewrite issued_throw in Ha; contradiction|];
                destruct (b <=? 0); [rewrite issued_throw in Hb; contradiction|];
                rewrite makeRequest_issued in Ha, Hb
              | unfold getPostComments, updatePost, patchPost, deletePost,
                  getComment, getAlbum, getAlbumPhotos, getPhoto, getTodo,
                  getUser, getUserPosts, getUserTodos, getUserAlbums in Ha, Hb;
                rewrite makeRequest_issued in Ha, Hb ];
            destruct Ha as [<-|[]]; destruct Hb as [<-|[]];
            same_url Hurl; contradiction
          | ]).
  contradiction.
Qed.

End Addressing.

(** * Properties of the example program *)

Section ExampleProperties.

Context {Remote : Type}.
Variable transport :
  AxiosRequestConfig -> Remote -> (AxiosResponse + ErrorObject) * Remote.
Variable cannot_read : Js.Value -> string -> string.

(** One awaited call of the executor inside a longer body. *)
Lemma bind_makeRequest {B : Type} method endpoint data params
    (k : ApiResponse -> M B) (w : World) :
  bind (makeRequest transport method endpoint data params) k w
  = match transport (config_literal (this w) method endpoint data params) (remote w) with
    | (inl response, r') =>
        k (envelope response)
          {| this := this w; remote := r';
             wire := wire w ++ [config_literal (this w) method endpoint data params] |}
    | (inr error, r') =>
        (Thrown (new_Error (failure_message (this w) error)),
         {| this := this w; remote := r';
            wire := wire w ++ [config_literal (this w) method endpoint data params] |})
    end.
Proof.
  unfold bind. rewrite makeRequest_run. unfold after_request.
  destruct (transport _ (remote w)) as [[response|error] r']; reflexivity.
Qed.

Lemma Error_toString_new_Error (msg : string) :
  msg <> "" -> Error_toString (new_Error msg) = "Error: " ++ msg.
Proof.
  intros Hmsg. unfold Error_toString, new_Error; simpl.
  destruct (String.eqb_spec msg ""); [contradiction | reflexivity].
Qed.

Lemma failure_message_nonempty (self : JsonPlaceholderApiClient) (error : ErrorObject) :
  failure_message self error <> "".
Proof.
  unfold failure_message.
  destruct (err_response error); [|destruct (code_is_ECONNABORTED error)];
    discriminate.
Qed.

Lemma getPost_1 :
  getPost transport 1 = makeRequest transport GET "/posts/1" Js.Undefined Js.Undefined.
Proof. reflexivity. Qed.

Lemma createPost_newPost :
  createPost transport newPost
  = makeRequest transport POST "/posts" (CreatePostRequest_value newPost) Js.Undefined.
Proof. reflexivity. Qed.

Ltac literal_config :=
  match goal with
  | |- context [config_literal ?s ?m ?e ?d ?p] =>
      let c := eval vm_compute in (config_literal s m e d p) in
      change (config_literal s m e d p) with c
  end.

(** Starts [main] and its replay on the literal requests. *)
Ltac start_main :=
  unfold main, try_catch, main_try;
  rewrite getPost_1, createPost_newPost;
  unfold getPosts, getPostComments, getUsers, getTodos, getAlbums;
  let l := eval vm_compute in main_requests in change main_requests with l;
  cbn [replay].

(** One awaited request: splits on the answer of the remote service. *)
Ltac await :=
  rewrite bind_makeRequest; cbn [this remote wire]; literal_config;
  match goal with
  | |- context [transport ?c ?r] => destruct (transport c r) as [[? | ?] ?]
  end;
  cbv iota beta.

(** [main] sends its seven requests in program order and stops sending at
    the first one that is rejected. *)
Theorem main_sends_requests_in_order (r : Remote) :
  wire (snd (main transport cannot_read r))
  = firstn (List.length (replay transport main_requests r)) main_requests.
Proof.
  start_main.
  do 7 (await; [|reflexivity]).
  unfold bind, get, ret, throw.
  repeat match goal with
         | |- context [property ?v ?p] => destruct (property v p)
         end; reflexivity.
Qed.

(** When one of the requests of [main] is rejected, [main] throws the
    executor's error for that rejection, wrapped once more: the message is
    "Example usage failed: Error: " followed by the executor's message. *)
Theorem main_wraps_first_rejection (r : Remote) (error : ErrorObject) :
  In (inr error) (replay transport main_requests r) ->
  fst (main transport cannot_read r)
  = Thrown (new_Error ("Example usage failed: Error: "
                       ++ failure_message (constructor None None) error)).
Proof.
  start_main.
  do 7 (await;
        [| intros Hin; simpl in Hin;
           repeat (destruct Hin as [Hin|Hin]; [try discriminate Hin|]);
           [injection Hin as <- | contradiction];
           unfold throw; cbn [fst];
           rewrite Error_toString_new_Error by apply failure_message_nonempty;
           reflexivity ]).
  intros Hin; simpl in Hin.
  repeat (destruct Hin as [Hin|Hin]; [discriminate Hin|]). contradiction.
Qed.

(** [main] returns a summary exactly when all seven requests are answered
    with a response and each property it reads can be read (the body it reads
    from is neither [undefined] nor [null]); the summary holds the values
    read: the [length] of the five lists, the [title] of the post and the
    [id] of the created post. *)
Theorem main_returns_iff (r : Remote) (s : ExampleSummary) :
  fst (main transport cannot_read r) = Returned s
  <->
  exists posts post comments users todos albums created,
    replay transport main_requests r
    = [inl posts; inl post; inl comments; inl users; inl todos; inl albums;
       inl created]
    /\ property (res_data posts) "length" = Some (postsCount s)
    /\ property (res_data post) "title" = Some (postTitle s)
    /\ property (res_data comments) "length" = Some (commentsCount s)
    /\ property (res_data users) "length" = Some (usersCount s)
    /\ property (res_data todos) "length" = Some (todosCount s)
    /\ property (res_data albums) "length" = Some (albumsCount s)
    /\ property (res_data created) "id" = Some (createdPostId s).
Proof.
  start_main.
  do 7 (await;
        [| split; [discriminate|];
           intros (? & ? & ? & ? & ? & ? & ? & Hreplay & _); discriminate Hreplay ]).
  unfold bind, get, ret, throw; cbn [data envelope].
  split.
  - intros Hret.
    repeat match type of Hret with
           | context [property ?v ?p] =>
               destruct (property v p) eqn:?; [|discriminate Hret]
           end.
    cbn in Hret. injection Hret as <-. cbn.
    do 7 eexists. repeat split; eassumption.
  - intros (posts & post & comments & users & todos & albums & created
            & Hreplay & H1 & H2 & H3 & H4 & H5 & H6 & H7).
    injection Hreplay as -> -> -> -> -> -> ->.
    rewrite H1, H2, H3, H4, H5, H6, H7. cbn. now destruct s.
Qed.

(** All seven requests can succeed and [main] still fail: when the body of
    the first response is [undefined] or [null], reading its [length] throws,
    and [main] throws the wrapped TypeError after having sent every
    request. *)
Theorem main_fails_on_missing_body (r : Remote)
    (posts post comments users todos albums created : AxiosResponse) :
  replay transport main_requests r
  = [inl posts; inl post; inl comments; inl users; inl todos; inl albums;
     inl created] ->
  res_data posts = Js.Undefined \/ res_data posts = Js.Null ->
  fst (main transport cannot_read r)
  = Thrown (new_Error ("Example usage failed: "
                       ++ Error_toString (TypeError cannot_read (res_data posts) "length")))
  /\ wire (snd (main transport cannot_read r)) = main_requests.
Proof.
  intros Hreplay Hbody. revert Hreplay. start_main.
  do 7 (await; [|discriminate]).
  intros Hreplay. injection Hreplay as -> -> -> -> -> -> ->.
  unfold bind, get, ret, throw; cbn [data envelope].
  destruct Hbody as [-> | ->]; split; reflexivity.
Qed.

End ExampleProperties.

Section Construction.

Context {Remote : Type}.
Variable transport :
  AxiosRequestConfig -> Remote -> (AxiosResponse + ErrorObject) * Remote.

(** The arguments of the constructor reach every request: a call on a client
    built from [url] and [ms] sends its request to [url] followed by the path
    of the method, with timeout [ms]; an argument left out is replaced by its
    default, each on its own. *)
Theorem constructor_settings_reach_requests (url : option string) (ms : option Z)
    (c : Call) (r : Remote) (config : AxiosRequestConfig) :
  In config (issued (invoke transport c)
               {| this := constructor url ms; remote := r; wire := [] |}) ->
  cfg_url config
  = match url with
    | Some u => u
    | None => "https://jsonplaceholder.typicode.com"
    end ++ EndpointTable.path c
  /\ cfg_timeout config = match ms with Some t => t | None => 10000 end.
Proof.
  rewrite invoke_issued.
  destruct (EndpointTable.pre_validation c); [|contradiction].
  intros [<-|[]]. split; reflexivity.
Qed.

End Construction.

(** * The further properties on the test doubles *)

Lemma session_requests_carry_client_settings_witness :
  cfg_timeout (config_literal Double.client DELETE "/posts/3" Js.Undefined Js.Undefined)
  = 10000.
Proof.
  apply (session_requests_carry_client_settings Double.transport
           [GetPosts; GetPost 0; DeletePost 3] (Double.world [])).
  right. left. reflexivity.
Defined.

(** A filter whose only set field is falsy is passed on whole. *)
Lemma request_body_and_params_witness :
  cfg_params (config_literal Double.client GET "/todos" Js.Undefined
                (Js.Object [("completed", Js.Bool false)]))
  = Some (Js.Object [("completed", Js.Bool false)]).
Proof.
  apply (request_body_and_params Double.transport
           (GetTodos (Some {| tf_userId := None; tf_completed := Some false |}))
           (Double.world [])).
  left. reflexivity.
Defined.

Lemma thrown_errors_are_plain_witness :
  err_response
    (new_Error "API request failed: Request failed with status code 404 - Status: 404")
  = None.
Proof.
  apply (thrown_errors_are_plain Double.transport (GetUser 999)
           (Double.world [inr Double.rejected_404])).
  reflexivity.
Defined.

Lemma returned_only_from_response_witness :
  exists config response,
    issued (invoke Double.transport (GetPost 1)) (Double.world [inl Double.ok_post])
    = [config]
    /\ fst (Double.transport config [inl Double.ok_post]) = inl response
    /\ envelope Double.ok_post
       = {| data := res_data response;
            status := res_status response;
            statusText := res_statusText response |}.
Proof.
  apply (returned_only_from_response Double.transport (GetPost 1)
           (Double.world [inl Double.ok_post]) (envelope Double.ok_post)).
  reflexivity.
Defined.

Lemma rejection_kind_iff_witness :
  exists msg,
    fst (invoke Double.transport GetAlbums (Double.world [inr Double.timed_out]))
    = Thrown (new_Error msg)
    /\ is_timeout msg = true.
Proof.
  destruct (rejection_kind_iff Double.transport GetAlbums
              (Double.world [inr Double.timed_out])
              (config_literal Double.client GET "/albums" Js.Undefined Js.Undefined)
              Double.timed_out eq_refl eq_refl)
    as (msg & Hthrown & _ & Htimeout & _).
  exists msg. split; [exact Hthrown|].
  apply Htimeout. split; reflexivity.
Defined.

Lemma distinct_ids_distinct_urls_witness :
  cfg_url (config_literal Double.client GET "/posts/1" Js.Undefined Js.Undefined)
  <> cfg_url (config_literal Double.client GET "/posts/2" Js.Undefined Js.Undefined).
Proof.
  apply (distinct_ids_distinct_urls Double.transport 1 2 (Double.world [])
           Double.sample_update (getPost Double.transport)).
  - unfold safe_integer. split; discriminate.
  - unfold safe_integer. split; discriminate.
  - discriminate.
  - left. reflexivity.
  - left. reflexivity.
  - left. reflexivity.
Defined.

Lemma main_wraps_first_rejection_witness :
  fst (main Double.transport ExampleDouble.cannot_read ExampleDouble.answers_timeout)
  = Thrown (new_Error "Example usage failed: Error: Request timed out after 10000ms").
Proof.
  apply (main_wraps_first_rejection Double.transport ExampleDouble.cannot_read
           ExampleDouble.answers_timeout Double.timed_out).
  right. right. left. reflexivity.
Defined.

Lemma main_returns_iff_witness :
  fst (main Double.transport ExampleDouble.cannot_read ExampleDouble.answers)
  = Returned {| postsCount := Js.Number 2;
                postTitle := Js.Str "sunt aut facere";
                commentsCount := Js.Number 3;
                usersCount := Js.Number 1;
                todosCount := Js.Number 0;
                albumsCount := Js.Number 1;
                createdPostId := Js.Number 101 |}.
Proof.
  apply (proj2 (main_returns_iff Double.transport ExampleDouble.cannot_read
                  ExampleDouble.answers _)).
  do 7 eexists. repeat split; reflexivity.
Defined.

Lemma main_fails_on_missing_body_witness :
  fst (main Double.transport ExampleDouble.cannot_read
         ExampleDouble.answers_null_posts)
  = Thrown (new_Error
              "Example usage failed: TypeError: Cannot read properties of null (reading 'length')").
Proof.
  refine (proj1 (main_fails_on_missing_body Double.transport
                   ExampleDouble.cannot_read ExampleDouble.answers_null_posts
                   _ _ _ _ _ _ _ eq_refl _)).
  right. reflexivity.
Defined.

Lemma constructor_settings_reach_requests_witness :
  cfg_url (config_literal (constructor (Some "https://httpbin.org/delay/15") None)
             GET "/posts" Js.Undefined Js.Undefined)
  = "https://httpbin.org/delay/15/posts".
Proof.
  apply (constructor_settings_reach_requests Double.transport
           (Some "https://httpbin.org/delay/15") None GetPosts []).
  left. reflexivity.
Defined.
